(** * SqliteEncryption: the compile-time gate around the SQLite Encryption
    Extension (cspro/SQLite/Encryption.h)

    The header wraps the two key-management primitives of the closed-source
    SQLite Encryption Extension (SEE).  Which body each wrapper gets is decided
    by the preprocessor symbol [SQLITE_HAS_CODEC]: with it the wrapper forwards
    to the global function of the same name, without it the wrapper throws a
    [CSProException].

    The embedding keeps three ingredients apart:
    - the external codec is an interface ([External.Codec]) over an abstract
      world; nothing is assumed about what it answers or how it changes the
      world;
    - a wrapper body is a small program ([Prog]) that returns, throws, or
      calls an external primitive and continues with its answer;
    - [run] executes a program against a codec and reports the outcome, the
      world afterwards and the external calls made, in order. *)

From Stdlib Require Import ZArith String List Bool.
Import ListNotations.

(** ** C data that crosses the interface *)

(** C [int].  The wrappers pass [nKey] and the status code along and never
    compute with them, so no wrap-around arises anywhere in this header. *)
Definition int : Type := Z.

(** ** The external engine: <external/SQLite/sqlite3.h> *)

Module External.

(** [sqlite3*]: an opaque connection handle, address 0 being the null
    pointer.  The header never dereferences it. *)
Record sqlite3_ptr : Type := Sqlite3Ptr { sqlite3_addr : N }.

(** [const void*]: the address of the caller's key bytes. *)
Record void_ptr : Type := VoidPtr { void_addr : N }.

Definition null_db : sqlite3_ptr := Sqlite3Ptr 0.
Definition null_key : void_ptr := VoidPtr 0.

(** A call of one of the two global primitives, [::sqlite3_key] and
    [::sqlite3_rekey], with the arguments it receives. *)
Inductive Call : Type :=
| sqlite3_key (db : sqlite3_ptr) (pKey : void_ptr) (nKey : int)
| sqlite3_rekey (db : sqlite3_ptr) (pKey : void_ptr) (nKey : int).

(** The codec as this header sees it: two C functions that answer an
    integer status code and may change the world (the connection's
    encryption state, the database file) in any way. *)
Class Codec (World : Type) : Type := {
  codec_sqlite3_key : sqlite3_ptr -> void_ptr -> int -> World -> int * World;
  codec_sqlite3_rekey : sqlite3_ptr -> void_ptr -> int -> World -> int * World
}.

(** What the codec does with a call. *)
Definition respond {World : Type} `{Codec World} (c : Call) (w : World)
  : int * World :=
  match c with
  | sqlite3_key db pKey nKey => codec_sqlite3_key db pKey nKey w
  | sqlite3_rekey db pKey nKey => codec_sqlite3_rekey db pKey nKey w
  end.

(** The status code it answers, and the world it leaves. *)
Definition status {World : Type} `{Codec World} (c : Call) (w : World) : int :=
  fst (respond c w).

Definition effect {World : Type} `{Codec World} (c : Call) (w : World) : World :=
  snd (respond c w).

(** The codec with its two primitives exchanged. *)
Definition exchanged {World : Type} (C : Codec World) : Codec World := {|
  codec_sqlite3_key := @codec_sqlite3_rekey World C;
  codec_sqlite3_rekey := @codec_sqlite3_key World C
|}.

End External.

(** ** Exceptions *)

(** The class [CSProException] is declared outside this header; the header
    only constructs it from a message. *)
Inductive Exception : Type :=
| CSProException (what : string).

Definition what (e : Exception) : string :=
  match e with CSProException m => m end.

(** ** Programs over the external interface *)

Inductive Prog (A : Type) : Type :=
| Return (a : A)
| Throw (e : Exception)
| Extern (c : External.Call) (k : int -> Prog A).

Arguments Return {A} a.
Arguments Throw {A} e.
Arguments Extern {A} c k.

(** How a call of a C++ function ends. *)
Inductive Outcome (A : Type) : Type :=
| Returned (a : A)
| Thrown (e : Exception).

Arguments Returned {A} a.
Arguments Thrown {A} e.

Definition returned_value {A : Type} (o : Outcome A) : option A :=
  match o with
  | Returned a => Some a
  | Thrown _ => None
  end.

Record Run (World A : Type) : Type := MkRun {
  outcome : Outcome A;
  world : World;
  trace : list External.Call
}.

Arguments MkRun {World A} outcome world trace.
Arguments outcome {World A} r.
Arguments world {World A} r.
Arguments trace {World A} r.

Fixpoint run {World : Type} {C : External.Codec World} {A : Type}
  (p : Prog A) (w : World) : Run World A :=
  match p with
  | Return a => MkRun (Returned a) w []
  | Throw e => MkRun (Thrown e) w []
  | Extern c k =>
      let (r, w') := External.respond c w in
      let rest := run (k r) w' in
      MkRun (outcome rest) (world rest) (c :: trace rest)
  end.

(** Replace every external call [c] of a program by [f c]. *)
Fixpoint retarget {A : Type} (f : External.Call -> External.Call) (p : Prog A)
  : Prog A :=
  match p with
  | Return a => Return a
  | Throw e => Throw e
  | Extern c k => Extern (f c) (fun r => retarget f (k r))
  end.

(** Key-set becomes re-key, with the same arguments. *)
Definition to_rekey (c : External.Call) : External.Call :=
  match c with
  | External.sqlite3_key db pKey nKey => External.sqlite3_rekey db pKey nKey
  | External.sqlite3_rekey db pKey nKey => External.sqlite3_rekey db pKey nKey
  end.

(** ** The header

    The namespace declares one constant and three functions and no variable
    of any kind, so a wrapper has nothing to read or write besides its
    parameters and the external world. *)

Module SqliteEncryption.
Import External.

(** [constexpr const char* NoSeeExceptionMessage] *)
Definition NoSeeExceptionMessage : string :=
  "SQLite encryption is not enabled in this CSPro build."%string.

Section Build.
(** [true] when the build defines the preprocessor symbol. *)
Variable SQLITE_HAS_CODEC : bool.

(** [constexpr bool IsEnabled()] *)
Definition IsEnabled : bool :=
  if SQLITE_HAS_CODEC then true else false.

(** [inline int sqlite3_key(sqlite3* db, const void* pKey, int nKey)].
    In the branch without the codec the statement [db;pKey;nKey;] only
    names the parameters and discards them. *)
Definition sqlite3_key (db : sqlite3_ptr) (pKey : void_ptr) (nKey : int)
  : Prog int :=
  if SQLITE_HAS_CODEC then
    Extern (External.sqlite3_key db pKey nKey) Return
  else
    Throw (CSProException NoSeeExceptionMessage).

(** [inline int sqlite3_rekey(sqlite3* db, const void* pKey, int nKey)] *)
Definition sqlite3_rekey (db : sqlite3_ptr) (pKey : void_ptr) (nKey : int)
  : Prog int :=
  if SQLITE_HAS_CODEC then
    Extern (External.sqlite3_rekey db pKey nKey) Return
  else
    Throw (CSProException NoSeeExceptionMessage).

End Build.

End SqliteEncryption.

(** The two builds. *)
Definition with_codec : bool := true.
Definition without_codec : bool := false.

(** ** Callers *)

(** A request made through the header: which wrapper, with which arguments. *)
Inductive Request : Type :=
| SetKey (db : External.sqlite3_ptr) (pKey : External.void_ptr) (nKey : int)
| ReKey (db : External.sqlite3_ptr) (pKey : External.void_ptr) (nKey : int).

Definition serve (build : bool) (r : Request) : Prog int :=
  match r with
  | SetKey db pKey nKey => SqliteEncryption.sqlite3_key build db pKey nKey
  | ReKey db pKey nKey => SqliteEncryption.sqlite3_rekey build db pKey nKey
  end.

(** The external call a request stands for. *)
Definition primitive (r : Request) : External.Call :=
  match r with
  | SetKey db pKey nKey => External.sqlite3_key db pKey nKey
  | ReKey db pKey nKey => External.sqlite3_rekey db pKey nKey
  end.

(** The world after a caller has made the requests of [history] one after
    the other, catching whatever each of them threw. *)
Fixpoint after {World : Type} {C : External.Codec World}
  (build : bool) (history : list Request) (w : World) : World :=
  match history with
  | [] => w
  | r :: later => after build later (world (run (serve build r) w))
  end.

(** The specification's wording of re-key: the contract of key-set, with the
    re-key primitive as the one forwarded to. *)
Definition ReKey_contract (build : bool) (db : External.sqlite3_ptr)
  (pKey : External.void_ptr) (nKey : int) : Prog int :=
  retarget to_rekey (SqliteEncryption.sqlite3_key build db pKey nKey).

(** A caller's whole session: the requests of [history] made one after the
    other, each exception caught where it surfaces.  Kept are the outcome of
    every request, the world at the end and every external call made, oldest
    first. *)
Record Session (World : Type) : Type := MkSession {
  outcomes : list (Outcome int);
  final : World;
  calls_made : list External.Call
}.

Arguments MkSession {World} outcomes final calls_made.
Arguments outcomes {World} s.
Arguments final {World} s.
Arguments calls_made {World} s.

Fixpoint session {World : Type} {C : External.Codec World}
  (build : bool) (history : list Request) (w : World) : Session World :=
  match history with
  | [] => MkSession [] w []
  | r :: later =>
      let first := run (serve build r) w in
      let rest := session build later (world first) in
      MkSession (outcome first :: outcomes rest) (final rest)
                (trace first ++ calls_made rest)
  end.

(** The same primitives called on the codec directly, with no header in
    between: the status codes answered and the world at the end. *)
Fixpoint direct {World : Type} {C : External.Codec World}
  (calls : list External.Call) (w : World) : list int * World :=
  match calls with
  | [] => ([], w)
  | c :: later =>
      let (code, w') := External.respond c w in
      let (codes, w'') := direct later w' in
      (code :: codes, w'')
  end.

(** ** A test double for the codec

    The world is the list of calls captured so far, oldest first; every call
    is answered with the same sentinel. *)

Definition capture (sentinel : int) (c : External.Call)
  (seen : list External.Call) : int * list External.Call :=
  (sentinel, seen ++ [c]).

Definition TestDouble (sentinel : int) : External.Codec (list External.Call) := {|
  External.codec_sqlite3_key db pKey nKey :=
    capture sentinel (External.sqlite3_key db pKey nKey);
  External.codec_sqlite3_rekey db pKey nKey :=
    capture sentinel (External.sqlite3_rekey db pKey nKey)
|}.



(** * Properties *)

Import SqliteEncryption.
Local Open Scope Z_scope.

(** ** Running the two shapes a wrapper body can have *)

Section RunLemmas.
Context {World : Type} {C : External.Codec World}.

Lemma run_throw (A : Type) (e : Exception) (w : World) :
  run (A := A) (Throw e) w = MkRun (Thrown e) w [].
Proof. reflexivity. Qed.

Lemma run_forward (c : External.Call) (w : World) :
  run (Extern c Return) w
  = MkRun (Returned (External.status c w)) (External.effect c w) [c].
Proof.
  unfold External.status, External.effect. simpl.
  destruct (External.respond c w) as [r w']. reflexivity.
Qed.

Lemma serve_with_codec (r : Request) :
  serve with_codec r = Extern (primitive r) Return.
Proof. destruct r; reflexivity. Qed.

Lemma serve_without_codec (r : Request) :
  serve without_codec r = Throw (CSProException NoSeeExceptionMessage).
Proof. destruct r; reflexivity. Qed.

End RunLemmas.

(** ** The build without the codec *)

(** C1: without [SQLITE_HAS_CODEC], [sqlite3_key] and [sqlite3_rekey] are the
    program that throws [CSProException(NoSeeExceptionMessage)], whatever the
    handle, the key pointer (null or not) and the key length; run against
    any codec from any world they end in that exception with no external call
    made; and two argument tuples cannot be told apart. *)
Theorem unavailable_for_every_argument :
  forall (db db' : External.sqlite3_ptr) (pKey pKey' : External.void_ptr)
         (nKey nKey' : int),
    (sqlite3_key without_codec db pKey nKey
       = Throw (CSProException NoSeeExceptionMessage)
     /\ sqlite3_rekey without_codec db pKey nKey
       = Throw (CSProException NoSeeExceptionMessage))
    /\ (forall (World : Type) (C : External.Codec World) (w : World),
          outcome (run (sqlite3_key without_codec db pKey nKey) w)
            = Thrown (CSProException NoSeeExceptionMessage)
          /\ trace (run (sqlite3_key without_codec db pKey nKey) w) = []
          /\ outcome (run (sqlite3_rekey without_codec db pKey nKey) w)
            = Thrown (CSProException NoSeeExceptionMessage)
          /\ trace (run (sqlite3_rekey without_codec db pKey nKey) w) = [])
    /\ sqlite3_key without_codec db pKey nKey
       = sqlite3_key without_codec db' pKey' nKey'
    /\ sqlite3_rekey without_codec db pKey nKey
       = sqlite3_rekey without_codec db' pKey' nKey'.
Proof.
  intros db db' pKey pKey' nKey nKey'.
  repeat split.
Qed.

(** The same at the arguments the specification singles out: a null handle,
    a null key and a key of length zero. *)
Example unavailable_at_null :
  run (C := TestDouble 0) (sqlite3_key without_codec External.null_db External.null_key 0) []
  = MkRun (Thrown (CSProException NoSeeExceptionMessage)) [] [].
Proof. reflexivity. Qed.

(** ** The build with the codec *)

(** C2: with [SQLITE_HAS_CODEC], [sqlite3_key] is one call of [::sqlite3_key]
    with the handle, the key pointer and the key length it was given, in that
    order, followed by the return of the answer; run against any codec it
    makes exactly that call, returns the status code the codec answered and
    leaves the world as the codec left it.  [sqlite3_rekey] does the same
    with [::sqlite3_rekey]. *)
Theorem forwards_verbatim :
  forall (World : Type) (C : External.Codec World) (w : World)
         (db : External.sqlite3_ptr) (pKey : External.void_ptr) (nKey : int),
    (sqlite3_key with_codec db pKey nKey
       = Extern (External.sqlite3_key db pKey nKey) Return
     /\ run (sqlite3_key with_codec db pKey nKey) w
       = MkRun (Returned (fst (External.codec_sqlite3_key db pKey nKey w)))
               (snd (External.codec_sqlite3_key db pKey nKey w))
               [External.sqlite3_key db pKey nKey])
    /\ (sqlite3_rekey with_codec db pKey nKey
          = Extern (External.sqlite3_rekey db pKey nKey) Return
        /\ run (sqlite3_rekey with_codec db pKey nKey) w
          = MkRun (Returned (fst (External.codec_sqlite3_rekey db pKey nKey w)))
                  (snd (External.codec_sqlite3_rekey db pKey nKey w))
                  [External.sqlite3_rekey db pKey nKey]).
Proof.
  intros World C w db pKey nKey.
  split; (split; [reflexivity | ]).
  - exact (run_forward (External.sqlite3_key db pKey nKey) w).
  - exact (run_forward (External.sqlite3_rekey db pKey nKey) w).
Qed.

(** The test double sees the three arguments and its sentinel comes back. *)
Example forwards_to_test_double :
  run (C := TestDouble 4242)
      (sqlite3_rekey with_codec (External.Sqlite3Ptr 7) (External.VoidPtr 9) 16) []
  = MkRun (Returned 4242)
          [External.sqlite3_rekey (External.Sqlite3Ptr 7) (External.VoidPtr 9) 16]
          [External.sqlite3_rekey (External.Sqlite3Ptr 7) (External.VoidPtr 9) 16].
Proof. reflexivity. Qed.

(** ** The capability query *)

(** C3: [IsEnabled] is a boolean constant of the build: [true] when
    [SQLITE_HAS_CODEC] is defined and [false] when it is not.  It is a value,
    not a program: it has no argument besides the build, reads no world and
    has no exceptional result. *)
Theorem IsEnabled_is_the_build_switch :
  IsEnabled with_codec = true
  /\ IsEnabled without_codec = false
  /\ (forall build : bool, IsEnabled build = build).
Proof.
  repeat split. intros [|]; reflexivity.
Qed.

(** ** Failing leaves no mark *)

Section Atomicity.
Context {World : Type} {C : External.Codec World}.

Lemma serve_without_codec_run (r : Request) (w : World) :
  run (serve without_codec r) w
  = MkRun (Thrown (CSProException NoSeeExceptionMessage)) w [].
Proof. rewrite serve_without_codec. apply run_throw. Qed.

Lemma after_without_codec (history : list Request) (w : World) :
  after without_codec history w = w.
Proof.
  revert w.
  induction history as [| r later IH]; intro w.
  - reflexivity.
  - cbn [after]. rewrite serve_without_codec_run. cbn [world]. apply IH.
Qed.

End Atomicity.

(** C4: without the codec a call of [sqlite3_key] or [sqlite3_rekey] ends in
    the exception with the world exactly as it was and with no external call
    made, for every codec, world and argument tuple; and so the world after
    any series of such calls is still the world before the first. *)
Theorem failure_is_atomic :
  forall (World : Type) (C : External.Codec World) (w : World)
         (db : External.sqlite3_ptr) (pKey : External.void_ptr) (nKey : int)
         (history : list Request),
    run (sqlite3_key without_codec db pKey nKey) w
      = MkRun (Thrown (CSProException NoSeeExceptionMessage)) w []
    /\ run (sqlite3_rekey without_codec db pKey nKey) w
      = MkRun (Thrown (CSProException NoSeeExceptionMessage)) w []
    /\ after without_codec history w = w.
Proof.
  intros World C w db pKey nKey history.
  split; [ | split ].
  - exact (serve_without_codec_run (SetKey db pKey nKey) w).
  - exact (serve_without_codec_run (ReKey db pKey nKey) w).
  - apply after_without_codec.
Qed.

(** ** Errors of the header's own *)

(** C5: with the codec neither wrapper throws: each returns, and what it
    returns is the status code the codec answered to the forwarded call,
    whatever that code is.  In either build the only exception a wrapper can
    end in is [CSProException(NoSeeExceptionMessage)], and it does so only in
    the build where [IsEnabled] is false. *)
Theorem no_error_of_its_own :
  forall (World : Type) (C : External.Codec World) (w : World) (r : Request),
    outcome (run (serve with_codec r) w)
      = Returned (External.status (primitive r) w)
    /\ (forall build : bool,
          match outcome (run (serve build r) w) with
          | Returned code => code = External.status (primitive r) w
          | Thrown e =>
              e = CSProException NoSeeExceptionMessage /\ IsEnabled build = false
          end).
Proof.
  intros World C w r. split.
  - rewrite serve_with_codec, run_forward. reflexivity.
  - intros [|].
    + change true with with_codec.
      rewrite serve_with_codec, run_forward. reflexivity.
    + change false with without_codec.
      rewrite serve_without_codec_run. cbn. split; reflexivity.
Qed.

(** A codec that reports a failure code: the wrapper hands it on. *)
Example failure_code_passes_through :
  outcome (run (C := TestDouble 26)
               (sqlite3_key with_codec (External.Sqlite3Ptr 1) (External.VoidPtr 2) 3) [])
  = Returned 26.
Proof. reflexivity. Qed.

(** ** The message *)

(** C6: [NoSeeExceptionMessage] is the text below, which says that encryption
    is not enabled in this build; without the codec [sqlite3_key] and
    [sqlite3_rekey] both end in an exception carrying that very constant, for
    every codec, world and argument tuple. *)
Theorem one_fixed_message :
  NoSeeExceptionMessage
    = "SQLite encryption is not enabled in this CSPro build."%string
  /\ String.index 0 "encryption is not enabled in this"%string NoSeeExceptionMessage
     = Some 7%nat
  /\ (forall (World : Type) (C : External.Codec World) (w w' : World)
             (db db' : External.sqlite3_ptr) (pKey pKey' : External.void_ptr)
             (nKey nKey' : int),
        exists e e' : Exception,
          outcome (run (sqlite3_key without_codec db pKey nKey) w) = Thrown e
          /\ outcome (run (sqlite3_rekey without_codec db' pKey' nKey') w') = Thrown e'
          /\ what e = NoSeeExceptionMessage
          /\ what e' = NoSeeExceptionMessage).
Proof.
  split; [reflexivity | split; [vm_compute; reflexivity | ]].
  intros World C w w' db db' pKey pKey' nKey nKey'.
  exists (CSProException NoSeeExceptionMessage), (CSProException NoSeeExceptionMessage).
  repeat split.
Qed.

(** ** Key-set and re-key side by side *)

Lemma run_exchanged_key (World : Type) (C : External.Codec World) (w : World)
  (db : External.sqlite3_ptr) (pKey : External.void_ptr) (nKey : int) :
  run (C := External.exchanged C) (Extern (External.sqlite3_key db pKey nKey) Return) w
  = MkRun (Returned (fst (External.codec_sqlite3_rekey db pKey nKey w)))
          (snd (External.codec_sqlite3_rekey db pKey nKey w))
          [External.sqlite3_key db pKey nKey].
Proof.
  cbn. destruct (External.codec_sqlite3_rekey db pKey nKey w) as [code w'].
  reflexivity.
Qed.

(** C7: [sqlite3_rekey] is [sqlite3_key] with the forwarded primitive
    replaced by [::sqlite3_rekey], in either build.  Without the codec the two
    wrappers are the same program at every argument tuple.  With the codec
    they are different programs, and the difference is the primitive alone:
    running [sqlite3_rekey] against a codec gives the outcome and the world
    that running [sqlite3_key] gives against the codec with its two
    primitives exchanged, and the call made is the re-key counterpart. *)
Theorem rekey_is_key_retargeted :
  forall (build : bool) (db : External.sqlite3_ptr) (pKey : External.void_ptr)
         (nKey : int),
    sqlite3_rekey build db pKey nKey = ReKey_contract build db pKey nKey
    /\ sqlite3_rekey without_codec db pKey nKey
       = sqlite3_key without_codec db pKey nKey
    /\ sqlite3_rekey with_codec db pKey nKey
       <> sqlite3_key with_codec db pKey nKey
    /\ (forall (World : Type) (C : External.Codec World) (w : World),
          outcome (run (C := C) (sqlite3_rekey build db pKey nKey) w)
            = outcome (run (C := External.exchanged C) (sqlite3_key build db pKey nKey) w)
          /\ world (run (C := C) (sqlite3_rekey build db pKey nKey) w)
            = world (run (C := External.exchanged C) (sqlite3_key build db pKey nKey) w)
          /\ trace (run (C := C) (sqlite3_rekey build db pKey nKey) w)
            = map to_rekey
                (trace (run (C := External.exchanged C) (sqlite3_key build db pKey nKey) w))).
Proof.
  intros build db pKey nKey.
  split; [ | split; [ | split ] ].
  - destruct build; reflexivity.
  - reflexivity.
  - unfold sqlite3_rekey, sqlite3_key, with_codec. intro Heq.
    injection Heq as Hcall. discriminate Hcall.
  - intros World C w. destruct build.
    + unfold sqlite3_rekey, sqlite3_key.
      rewrite run_exchanged_key, run_forward.
      unfold External.status, External.effect. cbn.
      repeat split.
    + repeat split.
Qed.

(** ** No memory between calls *)

Section Independence.
Context {World1 World2 : Type}.
Context {C1 : External.Codec World1} {C2 : External.Codec World2}.

(** The outcome of a request is a function of the build and of the status
    code the codec answers, even across codecs and worlds. *)
Lemma outcome_from_status (build : bool) (r : Request)
  (w1 : World1) (w2 : World2) :
  External.status (primitive r) w1 = External.status (primitive r) w2 ->
  outcome (run (serve build r) w1) = outcome (run (serve build r) w2).
Proof.
  intro Hstatus. destruct build.
  - change true with with_codec.
    rewrite serve_with_codec, !run_forward. cbn [outcome].
    now rewrite Hstatus.
  - change false with without_codec.
    now rewrite !serve_without_codec_run.
Qed.

End Independence.

(** C8: in a fixed build, take the same request after two arbitrary
    histories of earlier requests made through the header, started from
    arbitrary worlds.  If the codec answers the forwarded call with the same
    status code in both situations, the two invocations have the same
    outcome: nothing of the earlier requests is remembered by the header. *)
Theorem calls_are_independent :
  forall (build : bool) (World : Type) (C : External.Codec World)
         (history1 history2 : list Request) (w1 w2 : World) (r : Request),
    External.status (primitive r) (after build history1 w1)
      = External.status (primitive r) (after build history2 w2) ->
    outcome (run (serve build r) (after build history1 w1))
      = outcome (run (serve build r) (after build history2 w2)).
Proof.
  intros build World C history1 history2 w1 w2 r Hstatus.
  now apply outcome_from_status.
Qed.

(** The test double that answers 5, asked to set a key first on a fresh
    connection and then after a re-key and a key-set that went before. *)
Lemma calls_are_independent_witness :
  let r := SetKey (External.Sqlite3Ptr 1) (External.VoidPtr 2) 16 in
  let earlier := [ReKey (External.Sqlite3Ptr 1) (External.VoidPtr 8) 32;
                  SetKey (External.Sqlite3Ptr 3) (External.VoidPtr 2) 16] in
  after (C := TestDouble 5) with_codec earlier []
    = [External.sqlite3_rekey (External.Sqlite3Ptr 1) (External.VoidPtr 8) 32;
       External.sqlite3_key (External.Sqlite3Ptr 3) (External.VoidPtr 2) 16]
  /\ outcome (run (C := TestDouble 5) (serve with_codec r) [])
     = outcome (run (C := TestDouble 5) (serve with_codec r)
                    (after (C := TestDouble 5) with_codec earlier [])).
Proof.
  split.
  - reflexivity.
  - apply (calls_are_independent with_codec (list External.Call) (TestDouble 5)
             []
             [ReKey (External.Sqlite3Ptr 1) (External.VoidPtr 8) 32;
              SetKey (External.Sqlite3Ptr 3) (External.VoidPtr 2) 16]
             [] []
             (SetKey (External.Sqlite3Ptr 1) (External.VoidPtr 2) 16)).
    reflexivity.
Defined.

(** ** One switch for all three entry points *)

(** C9: in every build, for every codec, world and request, the wrapper ends
    in [CSProException(NoSeeExceptionMessage)] exactly when [IsEnabled] is
    false, and makes the forwarding call, that one call and no other,
    exactly when [IsEnabled] is true. *)
Theorem IsEnabled_agrees_with_wrappers :
  forall (build : bool) (World : Type) (C : External.Codec World) (w : World)
         (db : External.sqlite3_ptr) (pKey : External.void_ptr) (nKey : int),
    (outcome (run (sqlite3_key build db pKey nKey) w)
       = Thrown (CSProException NoSeeExceptionMessage)
     <-> IsEnabled build = false)
    /\ (trace (run (sqlite3_key build db pKey nKey) w)
          = [External.sqlite3_key db pKey nKey]
        <-> IsEnabled build = true)
    /\ (outcome (run (sqlite3_rekey build db pKey nKey) w)
          = Thrown (CSProException NoSeeExceptionMessage)
        <-> IsEnabled build = false)
    /\ (trace (run (sqlite3_rekey build db pKey nKey) w)
          = [External.sqlite3_rekey db pKey nKey]
        <-> IsEnabled build = true).
Proof.
  intros build World C w db pKey nKey.
  destruct build; unfold sqlite3_key, sqlite3_rekey, IsEnabled.
  - rewrite !run_forward. cbn [outcome trace].
    repeat split; intros; congruence.
  - rewrite !run_throw. cbn [outcome trace].
    repeat split; intros; congruence.
Qed.

(** ** No status code for unavailability *)

(** C10: without the codec no run of [sqlite3_key] or [sqlite3_rekey] has a
    returned value: for every codec, world and argument tuple the outcome is
    a thrown exception, and it equals [Returned code] for no status code. *)
Theorem never_returns_without_codec :
  forall (World : Type) (C : External.Codec World) (w : World)
         (db : External.sqlite3_ptr) (pKey : External.void_ptr) (nKey : int),
    (returned_value (outcome (run (sqlite3_key without_codec db pKey nKey) w)) = None
     /\ returned_value (outcome (run (sqlite3_rekey without_codec db pKey nKey) w)) = None)
    /\ (forall code : int,
          outcome (run (sqlite3_key without_codec db pKey nKey) w) <> Returned code
          /\ outcome (run (sqlite3_rekey without_codec db pKey nKey) w) <> Returned code).
Proof.
  intros World C w db pKey nKey.
  split; [ split; reflexivity | ].
  intro code. split; cbn; discriminate.
Qed.

(** ** Whole sessions *)

Section Sessions.
Context {World : Type} {C : External.Codec World}.

Lemma session_final_is_after (build : bool) (history : list Request) (w : World) :
  final (session build history w) = after build history w.
Proof.
  revert w. induction history as [| r later IH]; intro w; cbn.
  - reflexivity.
  - apply IH.
Qed.

Lemma direct_cons (c : External.Call) (later : list External.Call) (w : World) :
  direct (c :: later) w
  = (External.status c w :: fst (direct later (External.effect c w)),
     snd (direct later (External.effect c w))).
Proof.
  unfold External.status, External.effect. cbn.
  destruct (External.respond c w) as [code w']. cbn.
  destruct (direct later w') as [codes w'']. reflexivity.
Qed.

End Sessions.

(** X1: in the build with the codec the header is transparent over a whole
    session.  Whatever the codec and the starting world, a series of key-set
    and re-key requests makes exactly the corresponding primitive calls, one
    per request and in the order of the requests; every request returns, and
    the codes returned and the world at the end are those of calling the
    primitives on the codec directly. *)
Theorem session_with_codec_is_direct :
  forall (World : Type) (C : External.Codec World)
         (history : list Request) (w : World),
    session with_codec history w
    = MkSession (map Returned (fst (direct (map primitive history) w)))
                (snd (direct (map primitive history) w))
                (map primitive history).
Proof.
  intros World C history. induction history as [| r later IH]; intro w.
  - reflexivity.
  - cbn [session map]. rewrite serve_with_codec, run_forward.
    cbn [outcome world trace]. rewrite IH, direct_cons.
    reflexivity.
Qed.

(** Three requests against the test double that answers 0. *)
Example session_with_codec_run :
  session (C := TestDouble 0) with_codec
    [SetKey (External.Sqlite3Ptr 1) (External.VoidPtr 2) 16;
     ReKey (External.Sqlite3Ptr 1) (External.VoidPtr 3) 32;
     ReKey (External.Sqlite3Ptr 1) External.null_key 0] []
  = MkSession
      [Returned 0; Returned 0; Returned 0]
      [External.sqlite3_key (External.Sqlite3Ptr 1) (External.VoidPtr 2) 16;
       External.sqlite3_rekey (External.Sqlite3Ptr 1) (External.VoidPtr 3) 32;
       External.sqlite3_rekey (External.Sqlite3Ptr 1) External.null_key 0]
      [External.sqlite3_key (External.Sqlite3Ptr 1) (External.VoidPtr 2) 16;
       External.sqlite3_rekey (External.Sqlite3Ptr 1) (External.VoidPtr 3) 32;
       External.sqlite3_rekey (External.Sqlite3Ptr 1) External.null_key 0].
Proof. reflexivity. Qed.

(** X2: in the build without the codec a session of any length never reaches
    the codec.  Every request ends in [CSProException(NoSeeExceptionMessage)],
    there are as many such outcomes as requests, no external call is made
    and the world at the end is the world at the start. *)
Theorem session_without_codec_is_inert :
  forall (World : Type) (C : External.Codec World)
         (history : list Request) (w : World),
    session without_codec history w
    = MkSession
        (repeat (Thrown (CSProException NoSeeExceptionMessage)) (length history))
        w [].
Proof.
  intros World C history. induction history as [| r later IH]; intro w.
  - reflexivity.
  - cbn [session]. rewrite serve_without_codec_run.
    cbn [outcome world trace]. rewrite IH. reflexivity.
Qed.

(** ** Exchanging the codec under the header *)

Section Simulation.
Context {World1 World2 : Type}.
Context {C1 : External.Codec World1} {C2 : External.Codec World2}.
Variable R : World1 -> World2 -> Prop.


End Simulation.


